(** * aio-flowdock: a shallow embedding of [flowdock.py]

    The module has two classes.  [Session] marshals authenticated HTTP calls
    ([request] and its wrappers); [EventStream] owns one server-sent-events
    connection, guarded by the nullable handle [_evt], and a decode loop
    [_process_data] that republishes push events as notifications.

    Python values are a small inductive type, dictionaries are
    insertion-ordered association lists, and every method that performs I/O
    or can raise is a computation in a state-and-exception monad whose state
    records what was sent on the network and what was published.  Whatever
    the network answers (an HTTP response, the outcome of a handshake, the
    events of a stream) is an argument of the method that awaits it. *)

From Stdlib Require Import String Ascii List ZArith Bool Lia.
From Stdlib Require Import DecimalString.
Import ListNotations.
Open Scope string_scope.
Open Scope Z_scope.
Set Warnings "-register-all".

(** ** Python values, truthiness and dictionaries *)

Module Py.

Inductive value : Type :=
| VNone
| VBool (b : bool)
| VInt (z : Z)
| VStr (s : string)
| VList (items : list value)
| VDict (entries : list (string * value)).

(** A dictionary with string keys, in insertion order. *)
Definition dict : Type := list (string * value).

(** [bool(v)]: None, False, 0 and the empty string, list and dict are falsy. *)
Definition truthy (v : value) : bool :=
  match v with
  | VNone => false
  | VBool b => b
  | VInt z => negb (z =? 0)
  | VStr s => negb (s =? "")%string
  | VList items => match items with [] => false | _ :: _ => true end
  | VDict entries => match entries with [] => false | _ :: _ => true end
  end.

(** [a or b] *)
Definition or_ (a b : value) : value := if truthy a then a else b.

(** [d.get(k)] / [k in d]: the first binding of [k]. *)
Fixpoint dict_get (k : string) (d : dict) : option value :=
  match d with
  | [] => None
  | (k', v) :: rest => if (k =? k')%string then Some v else dict_get k rest
  end.

(** [d[k] = v]: an existing key keeps its position, a new key goes last. *)
Fixpoint dict_set (k : string) (v : value) (d : dict) : dict :=
  match d with
  | [] => [(k, v)]
  | (k', v') :: rest =>
      if (k =? k')%string then (k', v) :: rest else (k', v') :: dict_set k v rest
  end.

(** [d.update(other)], as the language defines it for a mapping:
    [for k in other: d[k] = other[k]]. *)
Definition dict_update (d other : dict) : dict :=
  fold_left
    (fun acc k => match dict_get k other with
                  | Some v => dict_set k v acc
                  | None => acc
                  end)
    (map fst other) d.

(** The keyword arguments of a call, collected into a dictionary. *)
Definition of_kwargs (kwargs : list (string * value)) : dict :=
  dict_update [] kwargs.

(** Exception classes met in the module.  All of them derive from
    [Exception]; the two aiohttp transport classes derive from
    [ClientConnectionError]. *)
Inductive exn_class : Type :=
| TypeError
| ValueError
| AttributeError
| JSONDecodeError
| ContentTypeError
| ClientConnectionError
| ServerDisconnectedError
| ClientConnectorError
| TimeoutError
| RuntimeError.

Record exn : Type := mkExn { exn_cls : exn_class; exn_msg : string }.

(** [isinstance(e, ClientConnectionError)] *)
Definition is_ClientConnectionError (e : exn) : bool :=
  match exn_cls e with
  | ClientConnectionError | ServerDisconnectedError | ClientConnectorError => true
  | _ => false
  end.

(** The outcome of evaluating an expression or awaiting a call. *)
Inductive result (A : Type) : Type :=
| Return (a : A)
| Raise (e : exn).
Arguments Return {A} a.
Arguments Raise {A} e.

(** The positional arguments of a call of the built-in [dict]: none, one
    mapping, or more than one value. *)
Inductive dict_args : Type :=
| NoArgs
| Mapping (d : dict)
| Several (first second : value) (more : list value).

(** The built-in [dict], called with positional arguments [args] and
    keyword arguments [kwargs].  It accepts at most one positional argument;
    a mapping is copied; the keyword arguments are then added. *)
Definition dict_ (args : dict_args) (kwargs : list (string * value))
  : result value :=
  match args with
  | NoArgs => Return (VDict (of_kwargs kwargs))
  | Mapping d => Return (VDict (dict_update d kwargs))
  | Several _ _ more =>
      Raise (mkExn TypeError
               ("dict expected at most 1 argument, got "
                ++ NilZero.string_of_uint (Nat.to_uint (2 + length more))))
  end.

(** [str(n)] for an integer, as [%s] formats it. *)
Definition str_of_int (z : Z) : string := NilZero.string_of_int (Z.to_int z).

(** [s.lower()] on ASCII text. *)
Definition lower_ascii (c : ascii) : ascii :=
  let n := nat_of_ascii c in
  if andb (Nat.leb 65 n) (Nat.leb n 90) then ascii_of_nat (n + 32) else c.

Fixpoint lower (s : string) : string :=
  match s with
  | EmptyString => EmptyString
  | String c rest => String (lower_ascii c) (lower rest)
  end.

(** [sep.join(parts)] *)
Definition join (sep : string) (parts : list string) : string :=
  String.concat sep parts.

(** An identifier that is formatted into a path: a string or an integer. *)
Inductive ident : Type :=
| IdStr (s : string)
| IdInt (z : Z).

(** [str(i)], which is what [%s] and [{}] put in the text. *)
Definition str_ (i : ident) : string :=
  match i with
  | IdStr s => s
  | IdInt z => str_of_int z
  end.

End Py.

(** ** The state-and-exception monad *)

Module Eff.
Import Py.

Definition M (St A : Type) : Type := St -> result A * St.

Definition ret {St A} (a : A) : M St A := fun s => (Return a, s).

Definition raise {St A} (e : exn) : M St A := fun s => (Raise e, s).

Definition bind {St A B} (m : M St A) (k : A -> M St B) : M St B :=
  fun s =>
    match m s with
    | (Return a, s') => k a s'
    | (Raise e, s') => (Raise e, s')
    end.

(** [try: body / except Exception as e: handler e]; what [body] did before
    raising stays done. *)
Definition try_except {St A} (body : M St A) (handler : exn -> M St A) : M St A :=
  fun s =>
    match body s with
    | (Return a, s') => (Return a, s')
    | (Raise e, s') => handler e s'
    end.

Definition of_result {St A} (r : result A) : M St A := fun s => (r, s).

Definition modify {St} (f : St -> St) : M St unit := fun s => (Return tt, f s).

Definition gets {St A} (f : St -> A) : M St A := fun s => (Return (f s), s).

End Eff.

Declare Scope eff_scope.
Delimit Scope eff_scope with eff.
Notation "x <- m ;; k" := (Eff.bind m (fun x => k))
  (at level 61, m at next level, right associativity) : eff_scope.
Notation "m ;; k" := (Eff.bind m (fun _ => k))
  (at level 61, right associativity) : eff_scope.
Open Scope eff_scope.

(** ** The network and the notification log *)

Module Net.
Import Py Eff.

(** A server-sent event as the SSE client yields it; the module reads
    only [data]. *)
Record MessageEvent : Type :=
  { evt_type : string; evt_data : string; evt_last_event_id : string }.

(** An HTTP response: [resp.status], and what [await resp.text()] and
    [await resp.json()] give. *)
Record Response : Type :=
  { status : Z; text : result string; json : result value }.

(** What [await session.request(...)] does: answer, or raise. *)
Inductive http_outcome : Type :=
| Responded (resp : Response)
| Failed (e : exn).

(** The arguments of one [session.request(method, url, **options)]. *)
Record HttpCall : Type :=
  { call_method : string; call_url : string; call_options : dict }.

(** A positional argument of [emit]. [ASelf] is the emitting object. *)
Inductive arg : Type :=
| AEvent (evt : MessageEvent)
| AValue (v : value)
| AExn (e : exn)
| ASelf.

(** [emit(category, *args)] as a listener observes it. *)
Record notification : Type :=
  { category : string; args : list arg }.

(** [EventSource(url, session=..., on_open=..., on_error=..., **options)].
    A callback [partial(self.emit, category, *bound)] is the notification it
    publishes when the SSE client calls it. *)
Record EventSource : Type :=
  { es_url : string;
    es_on_open : notification;
    es_on_error : notification;
    es_options : dict }.

Inductive net_action : Type :=
| HttpRequest (call : HttpCall)
| SseConnect (es : EventSource) (retry : Z)
| SseClose (es : EventSource).

(** Everything observable from outside: notifications published, in order;
    network actions, in order; decode loops handed to the event loop. *)
Record world : Type :=
  { published : list notification;
    wire : list net_action;
    tasks : list EventSource }.

Definition idle_world : world :=
  {| published := []; wire := []; tasks := [] |}.

(** [AsyncIOEventEmitter.emit]: hand the notification to the listeners. *)
Definition publish (c : string) (a : list arg) : M world unit :=
  modify (fun w => {| published := published w ++ [{| category := c; args := a |}];
                      wire := wire w; tasks := tasks w |}).

Definition send_on_wire (a : net_action) : M world unit :=
  modify (fun w => {| published := published w; wire := wire w ++ [a];
                      tasks := tasks w |}).

(** [loop.create_task(coro)] for a decode loop reading [es]. *)
Definition create_task (es : EventSource) : M world unit :=
  modify (fun w => {| published := published w; wire := wire w;
                      tasks := tasks w ++ [es] |}).

(** [await session.request(method, url, **options)] *)
Definition session_request (method url : string) (options : dict)
    (net : http_outcome) : M world Response :=
  send_on_wire (HttpRequest {| call_method := method; call_url := url;
                               call_options := options |}) ;;
  match net with
  | Responded resp => ret resp
  | Failed e => raise e
  end.

(** What the SSE client does while [await es.connect(retry)] runs: the
    callbacks it calls, in order, and the exception it raises when the
    connection cannot be opened. *)
Inductive callback : Type := OnOpen | OnError.

Record handshake : Type :=
  { hs_calls : list callback; hs_raises : option exn }.

Definition opened : handshake := {| hs_calls := [OnOpen]; hs_raises := None |}.

Definition call_back (es : EventSource) (cb : callback) : M world unit :=
  let n := match cb with OnOpen => es_on_open es | OnError => es_on_error es end in
  publish (category n) (args n).

Fixpoint call_backs (es : EventSource) (cbs : list callback) : M world unit :=
  match cbs with
  | [] => ret tt
  | cb :: rest => call_back es cb ;; call_backs es rest
  end.

(** [await es.connect(retry)] *)
Definition EventSource_connect (es : EventSource) (retry : Z) (hs : handshake)
  : M world unit :=
  send_on_wire (SseConnect es retry) ;;
  call_backs es (hs_calls hs) ;;
  match hs_raises hs with
  | None => ret tt
  | Some e => raise e
  end.

(** [await es.close()] *)
Definition EventSource_close (es : EventSource) : M world unit :=
  send_on_wire (SseClose es).

(** What the [async for] sees of the event source, step by step.  While
    [__anext__] is awaited the SSE client may call the callbacks it was given
    (it calls [on_error] when it loses the connection and [on_open] when it
    has reconnected); [__anext__] then yields an event, stops the iteration,
    or raises. *)
Inductive anext : Type :=
| Yield (evt : MessageEvent)
| StopAsyncIteration
| Throw (e : exn)
| Called (cb : callback).

End Net.

(** ** class EventStream(AsyncIOEventEmitter) *)

Module EventStream.
Import Py Eff Net.

Definition DEFAULT_STREAM_URL : string := "https://stream.flowdock.com/flows".

(** The attributes [__init__] sets.  [_evt] is the handle of the SSE
    client, [None] until [connect] and again after [end].  Channel
    identifiers are strings. *)
Record t : Type :=
  { _evt : option EventSource;
    auth : string;
    flows : list string;
    params : dict;
    url : string }.

(** [params or dict()] *)
Definition dict_or_empty (d : option dict) : dict :=
  match d with
  | Some d => if truthy (VDict d) then d else []
  | None => []
  end.

Section Construction.
(** [os.environ] *)
Variable environ : string -> option string.

Definition environ_get (k default : string) : string :=
  match environ k with Some v => v | None => default end.

Definition __init__ (auth : string) (flows : list string)
    (url : option string) (params : option dict) : t :=
  {| _evt := None;
     auth := auth;
     flows := flows;
     params := dict_or_empty params;
     url := match url with
            | Some u =>
                if truthy (VStr u) then u
                else environ_get "FLOWDOCK_STREAM_URL" DEFAULT_STREAM_URL
            | None => environ_get "FLOWDOCK_STREAM_URL" DEFAULT_STREAM_URL
            end |}.
End Construction.

Definition _options (self : t) : dict :=
  let qs := of_kwargs [("filter", VStr (join "," (flows self)))] in
  let qs := dict_update qs (params self) in
  [("params", VDict qs);
   ("headers", VDict [("Authorization", VStr (auth self))])].

(** The methods run on the object together with the outside world. *)
Record conn : Type := { self : t; outside : world }.

Definition in_world {A} (m : M world A) : M conn A :=
  fun c => let (r, w) := m (outside c) in (r, {| self := self c; outside := w |}).

Definition set_evt (h : option EventSource) : M conn unit :=
  modify (fun c =>
            {| self := {| _evt := h; auth := auth (self c); flows := flows (self c);
                          params := params (self c); url := url (self c) |};
               outside := outside c |}).

(** [self.emit], inherited from the emitter base class. *)
Definition emit (c : string) (a : list arg) : M world unit := publish c a.

(** [async def connect(self, retry=3)]; [hs] is what the SSE client does
    during the handshake, if one is attempted. *)
Definition connect (retry : Z) (hs : handshake) : M conn unit :=
  me <- gets self ;;
  match _evt me with
  | Some _ => ret tt
  | None =>
      let es := {| es_url := url me;
                   es_on_open := {| category := "connected"; args := [ASelf] |};
                   es_on_error := {| category := "error"; args := [] |};
                   es_options := _options me |} in
      set_evt (Some es) ;;
      let retry := if retry <? 0 then 0 else retry in
      in_world (EventSource_connect es retry hs) ;;
      in_world (create_task es)
  end.

(** [async def end(self)] *)
Definition end_ : M conn unit :=
  me <- gets self ;;
  match _evt me with
  | Some es => in_world (EventSource_close es) ;; set_evt None
  | None => ret tt
  end.

(** Where the decode loop stands once the events received so far are
    consumed: suspended in [__anext__], or returned. *)
Inductive loop_state : Type := Awaiting | Returned.

(** The callbacks [connect] binds on the event source that the loop
    iterates: [partial(self.emit, 'connected', self)] as [on_open] and
    [partial(self.emit, 'error')] as [on_error]. *)
Definition bound (cb : callback) : notification :=
  match cb with
  | OnOpen => {| category := "connected"; args := [ASelf] |}
  | OnError => {| category := "error"; args := [] |}
  end.

Section Decode.
(** [json.loads]: the decoded value, or the message of the
    [JSONDecodeError] it raises. *)
Variable json_loads : string -> value + string.

(** [await loop.run_in_executor(None, json.loads, data)] *)
Definition run_json_loads (data : string) : M world value :=
  match json_loads data with
  | inl v => ret v
  | inr why => raise (mkExn JSONDecodeError why)
  end.

(** The body of the [try]: [async for evt in event_source: ...] *)
Fixpoint async_for (event_source : list anext) : M world loop_state :=
  match event_source with
  | [] => ret Awaiting
  | Yield evt :: rest =>
      emit "rawdata" [AEvent evt] ;;
      msg <- run_json_loads (evt_data evt) ;;
      emit "message" [AValue msg] ;;
      async_for rest
  | StopAsyncIteration :: _ => ret Returned
  | Throw e :: _ => raise e
  | Called cb :: rest =>
      emit (category (bound cb)) (args (bound cb)) ;;
      async_for rest
  end.

Definition _process_data (event_source : list anext) : M world loop_state :=
  try_except (async_for event_source)
    (fun e =>
       if is_ClientConnectionError e
       then emit "disconnected" [AExn e] ;; ret Returned
       else emit "clientError" [AExn e] ;; ret Returned).
End Decode.

End EventStream.

(** ** class Session *)

Module Session.
Import Py Eff Net.

Definition DEFAULT_URL : string := "https://api.flowdock.com".

Record t : Type :=
  { email : string; password : string; url : string; auth : string }.

Section Construction.
Variable environ : string -> option string.
Variable b64encode : string -> string.

Definition __init__ (email password url : string) : t :=
  {| email := email;
     password := password;
     url := if truthy (VStr url) then url
            else EventStream.environ_get environ "FLOWDOCK_API_URL" DEFAULT_URL;
     auth := "Basic " ++ b64encode (email ++ ":" ++ password) |}.
End Construction.

(** [class Session:] names no base class, so a session has the attributes
    that [__init__] sets and the names the class body defines. *)
Definition attributes : list string :=
  ["email"; "password"; "session"; "url"; "auth";
   "__init__"; "stream"; "flows"; "send"; "message"; "thread_message";
   "comment"; "private_message"; "status"; "invite"; "edit_message";
   "post"; "get"; "put"; "delete"; "request"].

Definition has_attribute (name : string) : bool :=
  existsb (String.eqb name) attributes.

(** [self.emit(category, ...)] on a session: the attribute is looked up
    first. *)
Definition emit (c : string) (a : list arg) : M world unit :=
  if has_attribute "emit" then publish c a
  else raise (mkExn AttributeError "'Session' object has no attribute 'emit'").

(** The argument [flows] of [stream]: one identifier, or a list. *)
Inductive flows_arg : Type :=
| OneFlow (flow : string)
| FlowList (flows : list string).

Section Stream.
Variable environ : string -> option string.

Definition stream (self : t) (flows : flows_arg) (options : option dict)
  : EventStream.t :=
  let options := EventStream.dict_or_empty options in
  let flows := match flows with
               | FlowList l => l
               | OneFlow f => [f]
               end in
  EventStream.__init__ environ (auth self) flows None (Some options).
End Stream.

(** What [request] returns: [(await resp.json(), resp)], or the exception
    it caught. *)
Inductive returned : Type :=
| Parsed (body : value) (resp : Response)
| Caught (e : exn).

(** The keyword arguments [request] passes to the transport. *)
Definition request_options (self : t) (method : string) (data : value) : dict :=
  let data := or_ data (VDict []) in
  let header := [("Authorization", VStr (auth self));
                 ("Accept", VStr "application/json");
                 ("Content-Type", VStr "application/json")] in
  let options := of_kwargs [("headers", VDict header)] in
  if (lower method =? "get")%string
  then dict_update options [("params", data)]
  else dict_update options [("json", data)].

(** The body of the [try] in [request]. *)
Definition request_try (self : t) (method path : string) (data : value)
    (net : http_outcome) : M world returned :=
  let url := join "/" [url self; path] in
  resp <- session_request method url (request_options self method data) net ;;
  if 300 <=? status resp
  then body <- of_result (text resp) ;;
       raise (mkExn ValueError
                ("[" ++ str_of_int (status resp) ++ "] " ++ body))
  else body <- of_result (json resp) ;;
       ret (Parsed body resp).

(** [async def request(self, method, path, data=None)]; [net] is what the
    transport answers. *)
Definition request (self : t) (method path : string) (data : value)
    (net : http_outcome) : M world returned :=
  try_except (request_try self method path data net)
    (fun e => emit "error" [AExn e] ;; ret (Caught e)).

Definition post (self : t) (path : string) (data : value) :=
  request self "post" path data.

Definition get (self : t) (path : string) (data : value) :=
  request self "get" path data.

Definition put (self : t) (path : string) (data : value) :=
  request self "put" path data.

Definition delete (self : t) (path : string) :=
  request self "delete" path VNone.

Definition flows (self : t) :=
  fun net =>
    data <- of_result (dict_ NoArgs [("users", VInt 1)]) ;;
    get self "/flows" data net.

Definition send (self : t) (path : string) (message : value) :=
  post self path message.

Definition message (self : t) (flow_id msg tags : value) (net : http_outcome)
  : M world returned :=
  let tags := or_ tags (VList []) in
  data <- of_result (dict_ NoArgs [("flow", flow_id); ("event", VStr "message");
                               ("content", msg); ("tags", tags)]) ;;
  send self "/messages" data net.

Definition thread_message (self : t) (flow_id thread_id msg tags : value)
    (net : http_outcome) : M world returned :=
  let tags := or_ tags (VList []) in
  data <- of_result (dict_ (Several flow_id thread_id [])
                           [("event", VStr "message"); ("content", msg);
                            ("tags", tags)]) ;;
  send self "/messages" data net.

Definition status (self : t) (flow_id status : value) (net : http_outcome)
  : M world returned :=
  data <- of_result (dict_ NoArgs [("event", VStr "status"); ("content", status);
                               ("flow", flow_id)]) ;;
  send self "/messages" data net.

Definition comment (self : t) (flow_id parent_id comment tags : value)
    (net : http_outcome) : M world returned :=
  let data := VDict [("event", VStr "comment");
                     ("flow", flow_id);
                     ("message", parent_id);
                     ("content", comment);
                     ("tags", or_ tags (VList []))] in
  send self "/comments" data net.

Definition private_message (self : t) (user_id : ident) (msg tags : value)
    (net : http_outcome) : M world returned :=
  data <- of_result (dict_ NoArgs [("event", VStr "message"); ("content", msg);
                                   ("tags", or_ tags (VList []))]) ;;
  send self ("/private/" ++ str_ user_id ++ "/messages") data net.

Definition invite (self : t) (flow_id org_id : ident) (email msg : value)
    (net : http_outcome) : M world returned :=
  data <- of_result (dict_ NoArgs [("email", email); ("message", msg)]) ;;
  let path := "/flows/" ++ str_ org_id ++ "/" ++ str_ flow_id ++ "/invitations" in
  send self path data net.

Definition edit_message (self : t) (flow_id org_id msg_id : ident) (data : value)
    (net : http_outcome) : M world returned :=
  let path := "/flows/" ++ str_ org_id ++ "/" ++ str_ flow_id
              ++ "/message/" ++ str_ msg_id in
  put self path data net.

End Session.

(** ** Sample inputs *)

Module Sample.
Import Py Eff Net.

(** A decoder for the JSON literals, enough to run the decode loop on
    concrete events. *)
Definition literal_loads (data : string) : value + string :=
  if (data =? "null")%string then inl VNone
  else if (data =? "true")%string then inl (VBool true)
  else if (data =? "false")%string then inl (VBool false)
  else inr "Expecting value: line 1 column 1 (char 0)".

Definition event (data : string) : MessageEvent :=
  {| evt_type := "message"; evt_data := data; evt_last_event_id := "" |}.

Definition no_environ : string -> option string := fun _ => None.

Definition session : Session.t :=
  {| Session.email := "bot@example.org";
     Session.password := "secret";
     Session.url := Session.DEFAULT_URL;
     Session.auth := "Basic Ym90QGV4YW1wbGUub3JnOnNlY3JldA==" |}.

Definition not_found : Response :=
  {| status := 404;
     text := Return "flow not found";
     json := Raise (mkExn ContentTypeError "unexpected mimetype: text/plain") |}.

Definition server_error : Response :=
  {| status := 500;
     text := Return "boom";
     json := Raise (mkExn ContentTypeError "unexpected mimetype: text/plain") |}.

Definition created : Response :=
  {| status := 201;
     text := Return "null";
     json := Return (VDict [("id", VStr "abc")]) |}.

Definition refused : exn :=
  mkExn ClientConnectorError "Cannot connect to host api.flowdock.com:443".

(** A handshake that gives up: the error callback is called, then the
    SSE client raises. *)
Definition gave_up : handshake :=
  {| hs_calls := [OnError]; hs_raises := Some refused |}.

(** A stream on channel 123 whose caller passes a [filter] option. *)
Definition filtered_stream : EventStream.t :=
  Session.stream no_environ session (Session.OneFlow "123")
    (Some [("filter", VStr "999"); ("active", VStr "true")]).

Definition plain_stream : EventStream.t :=
  Session.stream no_environ session (Session.OneFlow "123") None.

Definition fresh (self : EventStream.t) : EventStream.conn :=
  {| EventStream.self := self; EventStream.outside := idle_world |}.

End Sample.

(** ** Observations used in the statements *)

Module Obs.
Import Py Eff Net.

(** The world with more notifications published. *)
Definition extend (w : world) (ns : list notification) : world :=
  {| published := published w ++ ns; wire := wire w; tasks := tasks w |}.

Definition rawdata (evt : MessageEvent) : notification :=
  {| category := "rawdata"; args := [AEvent evt] |}.

Definition message (v : value) : notification :=
  {| category := "message"; args := [AValue v] |}.

Definition clientError (e : exn) : notification :=
  {| category := "clientError"; args := [AExn e] |}.

(** How many notifications of a category a log holds. *)
Definition count (c : string) (log : list notification) : nat :=
  length (filter (fun n => (category n =? c)%string) log).


(** The query parameters a stream sends when it connects. *)
Definition query (self : EventStream.t) : dict :=
  match dict_get "params" (EventStream._options self) with
  | Some (VDict qs) => qs
  | _ => []
  end.

(** The SSE client [connect] builds for a stream. *)
Definition source_of (self : EventStream.t) : EventSource :=
  {| es_url := EventStream.url self;
     es_on_open := {| category := "connected"; args := [ASelf] |};
     es_on_error := {| category := "error"; args := [] |};
     es_options := EventStream._options self |}.

(** The state a computation leaves, whether it returns or raises. *)
Definition after {St A} (m : M St A) (s : St) : St := snd (m s).

Definition outcome {St A} (m : M St A) (s : St) : result A := fst (m s).

(** [_evt is not None] *)
Definition has_source (c : EventStream.conn) : bool :=
  match EventStream._evt (EventStream.self c) with
  | Some _ => true
  | None => false
  end.

(** The HTTP calls put on the wire. *)
Definition http_calls (w : world) : list HttpCall :=
  flat_map (fun a => match a with HttpRequest c => [c] | _ => [] end) (wire w).

(** How a call carries the body: as query parameters, as JSON. *)
Definition as_params (c : HttpCall) : option value :=
  dict_get "params" (call_options c).

Definition as_json (c : HttpCall) : option value :=
  dict_get "json" (call_options c).

(** A computation puts exactly one HTTP call on the wire, with this method
    and this body. *)
Definition sends {A} (m : M world A) (w : world) (method : string)
    (params json : option value) : Prop :=
  exists c,
    wire (after m w) = (wire w ++ [HttpRequest c])%list
    /\ call_method c = method
    /\ as_params c = params
    /\ as_json c = json.

(** The notification a callback of the SSE client publishes. *)
Definition called_back (es : EventSource) (cb : callback) : notification :=
  match cb with OnOpen => es_on_open es | OnError => es_on_error es end.

Section Decode.
Variable json_loads : string -> value + string.

(** The steps after which the loop goes on: an event whose data decodes,
    a callback called by the SSE client. *)
Definition decodes (a : anext) : bool :=
  match a with
  | Yield evt => match json_loads (evt_data evt) with
                 | inl _ => true
                 | inr _ => false
                 end
  | Called _ => true
  | _ => false
  end.

(** What is published at such a step: [rawdata] and [message] for the
    event, the callback's notification for a callback. *)
Definition relayed (a : anext) : list notification :=
  match a with
  | Yield evt => match json_loads (evt_data evt) with
                 | inl v => [rawdata evt; message v]
                 | inr _ => []
                 end
  | Called cb => [EventStream.bound cb]
  | _ => []
  end.

(** The log of a run up to and including an event that decodes to [v]. *)
Definition relay_log (pre : list anext) (evt : MessageEvent) (v : value)
  : list notification :=
  (flat_map relayed pre ++ [rawdata evt; message v])%list.

(** The log of a run that meets an event the decoder rejects with [why]. *)
Definition fatal_log (pre : list anext) (bad : MessageEvent) (why : string)
  : list notification :=
  (flat_map relayed pre
   ++ [rawdata bad; clientError (mkExn JSONDecodeError why)])%list.
End Decode.

(** A stream, with more notifications published around it. *)
Definition published_more (c : EventStream.conn) (ns : list notification)
  : EventStream.conn :=
  {| EventStream.self := EventStream.self c;
     EventStream.outside := extend (EventStream.outside c) ns |}.

End Obs.

(** ** Three sentences of the description, read literally *)

Module Stated.
Import Py Eff Net Obs.

(** Whatever the caller's options are, the [filter] query parameter is the
    comma-joined channel list. *)
Definition filter_is_channels (self : EventStream.t) : Prop :=
  dict_get "filter" (query self)
  = Some (VStr (join "," (EventStream.flows self))).


(** A [delete] puts calls on the wire that carry no body, neither as query
    parameters nor as JSON. *)
Definition delete_sends_no_body (self : Session.t) (path : string)
    (net : http_outcome) : Prop :=
  forall call,
    In call (http_calls (after (Session.delete self path net) idle_world)) ->
    as_params call = None /\ as_json call = None.

(** Once the decode loop of a stream has met an event that is not valid
    JSON, the stream never publishes [rawdata] or [message] again, even when
    the caller ends it, connects it again and the new loop reads [second]. *)
Definition malformed_event_is_final (json_loads : string -> value + string)
    (c : EventStream.conn) (first second : list anext) : Prop :=
  let failed :=
    after (EventStream.connect 3 opened ;;
           EventStream.in_world (EventStream._process_data json_loads first)) c in
  let later :=
    after (EventStream.end_ ;;
           EventStream.connect 3 opened ;;
           EventStream.in_world (EventStream._process_data json_loads second))
      failed in
  count "rawdata" (published (EventStream.outside later))
  = count "rawdata" (published (EventStream.outside failed))
  /\ count "message" (published (EventStream.outside later))
     = count "message" (published (EventStream.outside failed)).

End Stated.

(** ** Call sequences and the shapes of what is sent *)

Module Protocol.
Import Py Eff Net Obs.

(** A caller's use of one stream object: calls of [connect] and [end], in
    order, each [connect] with what the SSE client does if a handshake is
    attempted. *)
Inductive op : Type :=
| Connect (retry : Z) (hs : handshake)
| End.

Definition step (c : EventStream.conn) (o : op) : EventStream.conn :=
  match o with
  | Connect retry hs => after (EventStream.connect retry hs) c
  | End => after EventStream.end_ c
  end.

Definition run (ops : list op) (c : EventStream.conn) : EventStream.conn :=
  fold_left step ops c.

(** The two-state machine a stream is meant to follow: a [connect] while
    closed dials, an [end] while open hangs up, anything else is ignored. *)
Fixpoint machine_wire (es : EventSource) (open : bool) (ops : list op)
  : list net_action :=
  match ops with
  | [] => []
  | Connect retry _ :: rest =>
      if open then machine_wire es true rest
      else SseConnect es (Z.max 0 retry) :: machine_wire es true rest
  | End :: rest =>
      if open then SseClose es :: machine_wire es false rest
      else machine_wire es false rest
  end.

Fixpoint machine_state (open : bool) (ops : list op) : bool :=
  match ops with
  | [] => open
  | Connect _ _ :: rest => machine_state true rest
  | End :: rest => machine_state false rest
  end.

(** The decode loops the machine schedules: one for each handshake that
    succeeds. *)
Fixpoint machine_tasks (es : EventSource) (open : bool) (ops : list op)
  : list EventSource :=
  match ops with
  | [] => []
  | Connect _ hs :: rest =>
      if open then machine_tasks es true rest
      else match hs_raises hs with
           | None => es :: machine_tasks es true rest
           | Some _ => machine_tasks es true rest
           end
  | End :: rest => machine_tasks es false rest
  end.

Definition connected : notification :=
  {| category := "connected"; args := [ASelf] |}.

Definition error_bare : notification :=
  {| category := "error"; args := [] |}.

Definition disconnected (e : exn) : notification :=
  {| category := "disconnected"; args := [AExn e] |}.

(** What the loop publishes when the stream raises [e]. *)
Definition stream_failure (e : exn) : notification :=
  if is_ClientConnectionError e then disconnected e else clientError e.

(** A computation puts exactly one HTTP call on the wire, to this URL, with
    this method and these keyword arguments, and publishes nothing. *)
Definition calls {A} (m : M world A) (w : world) (method url : string)
    (options : dict) : Prop :=
  after m w
  = {| published := published w;
       wire := wire w ++ [HttpRequest {| call_method := method;
                                         call_url := url;
                                         call_options := options |}];
       tasks := tasks w |}.

(** The three headers of every request of a session. *)
Definition headers_of (self : Session.t) : value :=
  VDict [("Authorization", VStr (Session.auth self));
         ("Accept", VStr "application/json");
         ("Content-Type", VStr "application/json")].

End Protocol.

(** ** Dictionaries *)

Module DictFacts.
Import Py.

Lemma dict_get_set (k k' : string) (v : value) (d : dict) :
  dict_get k (dict_set k' v d) = if (k =? k')%string then Some v else dict_get k d.
Proof.
  induction d as [|[k0 v0] d IH]; simpl.
  - destruct (String.eqb_spec k k'); reflexivity.
  - destruct (String.eqb_spec k' k0) as [->|Hne]; simpl.
    + destruct (String.eqb_spec k k0); reflexivity.
    + rewrite IH.
      destruct (String.eqb_spec k k0) as [->|]; [|reflexivity].
      destruct (String.eqb_spec k0 k'); congruence.
Qed.

Lemma bound_keys (k : string) (d : dict) :
  existsb (String.eqb k) (map fst d)
  = match dict_get k d with Some _ => true | None => false end.
Proof.
  induction d as [|[k0 v0] d IH]; simpl; [reflexivity|].
  destruct (String.eqb_spec k k0); simpl; [reflexivity|exact IH].
Qed.

(** Copying the bindings of [other] for the keys [ks], one by one. *)
Lemma dict_get_copy (k : string) (other : dict) (ks : list string) :
  forall d,
    dict_get k
      (fold_left (fun acc k0 => match dict_get k0 other with
                                | Some v => dict_set k0 v acc
                                | None => acc
                                end) ks d)
    = if existsb (String.eqb k) ks
      then match dict_get k other with Some v => Some v | None => dict_get k d end
      else dict_get k d.
Proof.
  induction ks as [|k0 ks IH]; intros d; simpl; [reflexivity|].
  rewrite IH.
  destruct (String.eqb_spec k k0) as [->|Hne]; simpl.
  - destruct (dict_get k0 other) as [v|] eqn:E.
    + rewrite dict_get_set, String.eqb_refl.
      destruct (existsb _ ks); reflexivity.
    + destruct (existsb _ ks); reflexivity.
  - destruct (dict_get k0 other) as [v|] eqn:E; [|reflexivity].
    rewrite dict_get_set.
    destruct (String.eqb_spec k k0); [contradiction|reflexivity].
Qed.

(** After [d.update(other)] a key has the value [other] gives it, and the
    value it had in [d] when [other] does not bind it. *)
Lemma dict_get_update (k : string) (d other : dict) :
  dict_get k (dict_update d other)
  = match dict_get k other with Some v => Some v | None => dict_get k d end.
Proof.
  unfold dict_update. rewrite dict_get_copy, bound_keys.
  destruct (dict_get k other); reflexivity.
Qed.

End DictFacts.

(** ** Connection parameters of an event stream *)

Module StreamParams.
Import Py Eff Net Obs.

(** C2, counterexample.  A stream on channel 123 constructed with the
    option [filter=999] sends [filter=999], not [filter=123]. *)
Lemma caller_filter_overrides : ~ Stated.filter_is_channels Sample.filtered_stream.
Proof. unfold Stated.filter_is_channels. vm_compute. discriminate. Qed.

(** C2, amended.  The query parameters sent at connect time are the
    caller's options laid over [filter=<comma-joined channels>]: every key
    the caller supplies has the caller's value, [filter] included; when the
    caller supplies no [filter], its value is the comma-joined channel
    list; no other key is present. *)
Theorem query_is_options_over_filter (self : EventStream.t) (k : string) :
  dict_get k (query self)
  = match dict_get k (EventStream.params self) with
    | Some v => Some v
    | None => if (k =? "filter")%string
              then Some (VStr (join "," (EventStream.flows self)))
              else None
    end.
Proof.
  unfold query, EventStream._options. cbn [dict_get String.eqb Ascii.eqb Bool.eqb].
  rewrite DictFacts.dict_get_update.
  destruct (dict_get k (EventStream.params self)); [reflexivity|].
  unfold of_kwargs. rewrite DictFacts.dict_get_update.
  cbn [dict_get]. destruct (k =? "filter")%string; reflexivity.
Qed.

(** C10.  [stream] called with one identifier makes a stream whose channel
    list is that identifier alone, so the comma-joined filter value is the
    identifier; with no options given the query parameters are exactly
    [filter=<identifier>]; and the stream has no SSE client yet. *)
Theorem stream_wraps_single_flow
    (environ : string -> option string) (session : Session.t)
    (flow : string) (options : option dict) :
  let s := Session.stream environ session (Session.OneFlow flow) options in
  EventStream.flows s = [flow]
  /\ join "," (EventStream.flows s) = flow
  /\ EventStream._evt s = None
  /\ EventStream.auth s = Session.auth session
  /\ query (Session.stream environ session (Session.OneFlow flow) None)
     = [("filter", VStr flow)].
Proof.
  cbv zeta. repeat split.
Qed.

End StreamParams.

(** ** The decode loop *)

Module DecodeLoop.
Import Py Eff Net Obs.

Lemma extend_nil (w : world) : extend w [] = w.
Proof. destruct w; unfold extend; simpl. now rewrite app_nil_r. Qed.

Lemma extend_extend (w : world) (a b : list notification) :
  extend (extend w a) b = extend w (a ++ b).
Proof. unfold extend; simpl. now rewrite app_assoc. Qed.

Lemma count_app (c : string) (a b : list notification) :
  count c (a ++ b) = (count c a + count c b)%nat.
Proof. unfold count. now rewrite filter_app, length_app. Qed.

Section WithDecoder.
Variable json_loads : string -> value + string.

(** One event whose data decodes: [rawdata], then [message], then on to
    the rest. *)
Lemma async_for_decoded (evt : MessageEvent) (v : value) (rest : list anext)
    (w : world) :
  json_loads (evt_data evt) = inl v ->
  EventStream.async_for json_loads (Yield evt :: rest) w
  = EventStream.async_for json_loads rest (extend w [rawdata evt; message v]).
Proof.
  intros Hv. cbn [EventStream.async_for].
  unfold bind. cbn.
  unfold EventStream.run_json_loads. rewrite Hv. cbn.
  f_equal. unfold extend; cbn. now rewrite <- app_assoc.
Qed.

(** One event whose data does not decode: [rawdata], then the decoder's
    exception leaves the loop. *)
Lemma async_for_malformed (evt : MessageEvent) (why : string)
    (rest : list anext) (w : world) :
  json_loads (evt_data evt) = inr why ->
  EventStream.async_for json_loads (Yield evt :: rest) w
  = (Raise (mkExn JSONDecodeError why), extend w [rawdata evt]).
Proof.
  intros Hv. cbn [EventStream.async_for].
  unfold bind. cbn.
  unfold EventStream.run_json_loads. rewrite Hv. reflexivity.
Qed.

(** A callback called by the SSE client: its notification, then on to the
    rest. *)
Lemma async_for_called (cb : callback) (rest : list anext) (w : world) :
  EventStream.async_for json_loads (Called cb :: rest) w
  = EventStream.async_for json_loads rest (extend w [EventStream.bound cb]).
Proof.
  cbn [EventStream.async_for]. unfold bind. cbn.
  destruct cb; reflexivity.
Qed.

Lemma async_for_prefix (pre rest : list anext) :
  forallb (decodes json_loads) pre = true ->
  forall w,
    EventStream.async_for json_loads (pre ++ rest) w
    = EventStream.async_for json_loads rest (extend w (flat_map (relayed json_loads) pre)).
Proof.
  induction pre as [|a pre IH]; intros Hpre w.
  - cbn. now rewrite extend_nil.
  - cbn [forallb] in Hpre. apply andb_true_iff in Hpre as [Ha Hpre].
    destruct a as [evt| |e|cb]; try discriminate Ha.
    + cbn [Obs.decodes] in Ha. cbn [flat_map Obs.relayed].
      destruct (json_loads (evt_data evt)) as [v|why] eqn:Hv; [|discriminate Ha].
      rewrite <- app_comm_cons, (async_for_decoded evt v _ w Hv).
      rewrite (IH Hpre), extend_extend. reflexivity.
    + cbn [flat_map Obs.relayed].
      rewrite <- app_comm_cons, (async_for_called cb _ w).
      rewrite (IH Hpre), extend_extend. reflexivity.
Qed.

Lemma process_data_prefix (pre rest : list anext) (w : world) :
  forallb (decodes json_loads) pre = true ->
  EventStream._process_data json_loads (pre ++ rest) w
  = EventStream._process_data json_loads rest (extend w (flat_map (relayed json_loads) pre)).
Proof.
  intros Hpre. unfold EventStream._process_data, try_except.
  now rewrite (async_for_prefix pre rest Hpre).
Qed.

Lemma relayed_no_clientError (pre : list anext) :
  count "clientError" (flat_map (relayed json_loads) pre) = 0%nat.
Proof.
  induction pre as [|a pre IH]; [reflexivity|].
  cbn [flat_map]. rewrite count_app, IH.
  destruct a as [evt| |e|cb]; try reflexivity.
  - cbn [Obs.relayed]. destruct (json_loads (evt_data evt)); reflexivity.
  - destruct cb; reflexivity.
Qed.

(** The decode loop never raises and only ever adds notifications. *)
Lemma process_data_total (source : list anext) :
  forall w, exists st ns, EventStream._process_data json_loads source w = (Return st, extend w ns).
Proof.
  induction source as [|a source IH]; intros w.
  - exists EventStream.Awaiting, []. cbn. now rewrite extend_nil.
  - destruct a as [evt| |e|cb].
    + destruct (json_loads (evt_data evt)) as [v|why] eqn:Hv.
      * destruct (IH (extend w [rawdata evt; message v])) as (st & ns & E).
        exists st, ([rawdata evt; message v] ++ ns)%list.
        unfold EventStream._process_data, try_except in *.
        rewrite (async_for_decoded evt v source w Hv).
        rewrite <- extend_extend. exact E.
      * exists EventStream.Returned,
          [rawdata evt; clientError (mkExn JSONDecodeError why)].
        unfold EventStream._process_data, try_except.
        rewrite (async_for_malformed evt why source w Hv).
        cbn. unfold extend; cbn. now rewrite <- app_assoc.
    + exists EventStream.Returned, []. cbn. now rewrite extend_nil.
    + unfold EventStream._process_data, try_except. cbn.
      destruct (is_ClientConnectionError e);
        eexists EventStream.Returned, [_]; reflexivity.
    + destruct (IH (extend w [EventStream.bound cb])) as (st & ns & E).
      exists st, ([EventStream.bound cb] ++ ns)%list.
      unfold EventStream._process_data, try_except in *.
      rewrite (async_for_called cb source w).
      rewrite <- extend_extend. exact E.
Qed.

(** A run that reaches an event whose data decodes is the run on the
    events that follow, started from the log with that event's [rawdata]
    and [message] added. *)
Lemma valid_event_rawdata_then_message
    (pre : list anext) (evt : MessageEvent) (v : value) (rest : list anext)
    (w : world) :
  forallb (decodes json_loads) pre = true ->
  json_loads (evt_data evt) = inl v ->
  EventStream._process_data json_loads (pre ++ Yield evt :: rest) w
  = EventStream._process_data json_loads rest
      (extend w (flat_map (relayed json_loads) pre ++ [rawdata evt; message v])).
Proof.
  intros Hpre Hv.
  rewrite (process_data_prefix pre _ w Hpre).
  unfold EventStream._process_data, try_except.
  rewrite (async_for_decoded evt v rest _ Hv), extend_extend.
  reflexivity.
Qed.

(** One run of the loop that reaches an event whose data does not decode:
    that event's [rawdata], then one [clientError] carrying the decoder's
    exception, and the loop returns, whatever events follow. *)
Lemma malformed_event_ends_loop
    (pre : list anext) (bad : MessageEvent) (why : string)
    (post : list anext) (w : world) :
  forallb (decodes json_loads) pre = true ->
  json_loads (evt_data bad) = inr why ->
  EventStream._process_data json_loads (pre ++ Yield bad :: post) w
  = (Return EventStream.Returned,
     extend w (flat_map (relayed json_loads) pre
               ++ [rawdata bad; clientError (mkExn JSONDecodeError why)]))
  /\ count "clientError"
       (flat_map (relayed json_loads) pre
        ++ [rawdata bad; clientError (mkExn JSONDecodeError why)]) = 1%nat.
Proof.
  intros Hpre Hbad. split.
  - rewrite (process_data_prefix pre _ w Hpre).
    unfold EventStream._process_data, try_except.
    rewrite (async_for_malformed bad why post _ Hbad).
    cbn. f_equal. unfold extend; cbn. f_equal.
    now rewrite <- !app_assoc.
  - rewrite count_app, relayed_no_clientError. reflexivity.
Qed.

End WithDecoder.

End DecodeLoop.

(** ** Connecting and ending a stream *)

Module Lifecycle.
Import Py Eff Net Obs.

Lemma call_backs_publish (es : EventSource) (cbs : list callback) :
  forall w, call_backs es cbs w = (Return tt, extend w (map (called_back es) cbs)).
Proof.
  induction cbs as [|cb cbs IH]; intros w.
  - cbn. now rewrite DecodeLoop.extend_nil.
  - cbn [call_backs map]. unfold bind. cbn.
    rewrite IH. f_equal. unfold extend, called_back; cbn.
    destruct cb; [destruct (es_on_open es)|destruct (es_on_error es)];
      cbn; now rewrite <- app_assoc.
Qed.

Lemma EventSource_connect_run (es : EventSource) (retry : Z) (hs : handshake)
    (w : world) :
  EventSource_connect es retry hs w
  = (match hs_raises hs with None => Return tt | Some e => Raise e end,
     {| published := published w ++ map (called_back es) (hs_calls hs);
        wire := wire w ++ [SseConnect es retry];
        tasks := tasks w |}).
Proof.
  unfold EventSource_connect, bind, send_on_wire, modify.
  rewrite call_backs_publish.
  destruct (hs_raises hs); reflexivity.
Qed.

(** The world once [connect] has awaited the handshake and, when it
    succeeded, scheduled the decode loop. *)
Lemma connect_without_source (c : EventStream.conn) (retry : Z) (hs : handshake) :
  EventStream._evt (EventStream.self c) = None ->
  let es := source_of (EventStream.self c) in
  let c' := after (EventStream.connect retry hs) c in
  EventStream._evt (EventStream.self c') = Some es
  /\ source_of (EventStream.self c') = es
  /\ wire (EventStream.outside c')
     = (wire (EventStream.outside c)
        ++ [SseConnect es (if retry <? 0 then 0 else retry)])%list
  /\ tasks (EventStream.outside c')
     = (tasks (EventStream.outside c)
        ++ match hs_raises hs with None => [es] | Some _ => [] end)%list
  /\ outcome (EventStream.connect retry hs) c
     = match hs_raises hs with None => Return tt | Some e => Raise e end.
Proof.
  intros Hnone. cbv zeta.
  unfold after, outcome, EventStream.connect, bind, gets, EventStream.set_evt,
    modify, EventStream.in_world.
  cbn -[EventSource_connect create_task]. rewrite Hnone.
  cbn -[EventSource_connect create_task].
  rewrite EventSource_connect_run.
  destruct (hs_raises hs); cbn; rewrite ?app_nil_r; repeat split.
Qed.

Lemma connect_with_source (c : EventStream.conn) (retry : Z) (hs : handshake)
    (es : EventSource) :
  EventStream._evt (EventStream.self c) = Some es ->
  EventStream.connect retry hs c = (Return tt, c).
Proof.
  intros Hsome. unfold EventStream.connect, bind, gets. cbn.
  now rewrite Hsome.
Qed.

Lemma end_clears_source (c : EventStream.conn) :
  let c' := after EventStream.end_ c in
  EventStream._evt (EventStream.self c') = None
  /\ source_of (EventStream.self c') = source_of (EventStream.self c)
  /\ wire (EventStream.outside c')
     = (wire (EventStream.outside c)
        ++ match EventStream._evt (EventStream.self c) with
           | Some es => [SseClose es]
           | None => []
           end)%list
  /\ tasks (EventStream.outside c') = tasks (EventStream.outside c).
Proof.
  cbv zeta. unfold after, EventStream.end_, bind, gets. cbn.
  destruct (EventStream._evt (EventStream.self c)) as [es|] eqn:E; cbn.
  - repeat split.
  - rewrite app_nil_r. repeat split; assumption.
Qed.

(** C9.  After one call of [connect], whatever it did, a second call returns
    at once and changes nothing: no handshake, no decode loop.  On a newly
    constructed stream the first call attempts the one handshake. *)
Theorem second_connect_returns_at_once
    (c : EventStream.conn) (retry1 retry2 : Z) (hs1 hs2 : handshake)
    (environ : string -> option string) (auth : string) (flows : list string)
    (url : option string) (params : option dict) (w : world) :
  let once := after (EventStream.connect retry1 hs1) c in
  let new := {| EventStream.self := EventStream.__init__ environ auth flows url params;
                EventStream.outside := w |} in
  EventStream.connect retry2 hs2 once = (Return tt, once)
  /\ wire (EventStream.outside
             (after (EventStream.connect retry2 hs2)
                (after (EventStream.connect retry1 hs1) new)))
     = (wire w ++ [SseConnect (source_of (EventStream.self new))
                     (if retry1 <? 0 then 0 else retry1)])%list
  /\ tasks (EventStream.outside
              (after (EventStream.connect retry2 hs2)
                 (after (EventStream.connect retry1 hs1) new)))
     = (tasks w ++ match hs_raises hs1 with
                   | None => [source_of (EventStream.self new)]
                   | Some _ => []
                   end)%list.
Proof.
  cbv zeta.
  assert (again : forall c0,
             EventStream.connect retry2 hs2 (after (EventStream.connect retry1 hs1) c0)
             = (Return tt, after (EventStream.connect retry1 hs1) c0)).
  { intros c0.
    destruct (EventStream._evt (EventStream.self c0)) as [es|] eqn:E.
    - unfold after. rewrite (connect_with_source c0 retry1 hs1 es E). cbn.
      exact (connect_with_source c0 retry2 hs2 es E).
    - destruct (connect_without_source c0 retry1 hs1 E) as (Hs & _).
      exact (connect_with_source _ retry2 hs2 _ Hs). }
  split; [apply again|].
  unfold after at 1 3. rewrite again. cbn [snd].
  destruct (connect_without_source
              {| EventStream.self := EventStream.__init__ environ auth flows url params;
                 EventStream.outside := w |} retry1 hs1 eq_refl)
    as (_ & _ & Hw & Ht & _).
  split; [exact Hw|exact Ht].
Qed.



End Lifecycle.

(** ** Requests *)

Module Requests.
Import Py Eff Net Obs.

(** A session has no [emit]: the lookup raises. *)
Lemma session_emit_raises (c : string) (a : list arg) (w : world) :
  Session.emit c a w
  = (Raise (mkExn AttributeError "'Session' object has no attribute 'emit'"), w).
Proof. reflexivity. Qed.

(** The body of the [try] puts the call on the wire and publishes nothing. *)
Lemma request_try_wire (self : Session.t) (method path : string) (data : value)
    (net : http_outcome) (w : world) :
  after (Session.request_try self method path data net) w
  = {| published := published w;
       wire := wire w
               ++ [HttpRequest
                     {| call_method := method;
                        call_url := join "/" [Session.url self; path];
                        call_options := Session.request_options self method data |}];
       tasks := tasks w |}.
Proof.
  unfold after, Session.request_try, session_request, send_on_wire, modify,
    bind, of_result, ret, raise.
  cbn. destruct net as [resp|e]; [|reflexivity].
  destruct (300 <=? status resp).
  - destruct (text resp); reflexivity.
  - destruct (json resp); reflexivity.
Qed.

(** [request] changes the world exactly as the body of its [try] does. *)
Lemma request_world (self : Session.t) (method path : string) (data : value)
    (net : http_outcome) (w : world) :
  after (Session.request self method path data net) w
  = after (Session.request_try self method path data net) w.
Proof.
  unfold after, Session.request, try_except.
  destruct (Session.request_try self method path data net w) as [[r|e] w'];
    reflexivity.
Qed.

(** What [request] gives its caller: the parsed body, or the
    [AttributeError] raised in the handler. *)
Lemma request_outcome (self : Session.t) (method path : string) (data : value)
    (net : http_outcome) (w : world) :
  outcome (Session.request self method path data net) w
  = match outcome (Session.request_try self method path data net) w with
    | Return r => Return r
    | Raise _ =>
        Raise (mkExn AttributeError "'Session' object has no attribute 'emit'")
    end.
Proof.
  unfold outcome, Session.request, try_except.
  destruct (Session.request_try self method path data net w) as [[r|e] w'];
    reflexivity.
Qed.

(** No call of [request] publishes a notification or returns an exception
    it caught. *)
Lemma request_never_reports (self : Session.t) (method path : string)
    (data : value) (net : http_outcome) (w : world) :
  published (after (Session.request self method path data net) w) = published w
  /\ forall e, outcome (Session.request self method path data net) w
               <> Return (Session.Caught e).
Proof.
  split.
  - rewrite request_world, request_try_wire. reflexivity.
  - intros e. rewrite request_outcome.
    unfold outcome, Session.request_try, session_request, send_on_wire, modify,
      bind, of_result, ret, raise.
    cbn. destruct net as [resp|e0]; cbn; [|discriminate].
    destruct (300 <=? status resp).
    + destruct (text resp); discriminate.
    + destruct (json resp); discriminate.
Qed.

Lemma request_sends (self : Session.t) (method path : string) (data : value)
    (net : http_outcome) (w : world) :
  sends (Session.request self method path data net) w method
    (if (lower method =? "get")%string then Some (or_ data (VDict [])) else None)
    (if (lower method =? "get")%string then None else Some (or_ data (VDict []))).
Proof.
  eexists. rewrite request_world, request_try_wire. cbn [wire].
  split; [reflexivity|]. split; [reflexivity|].
  unfold as_params, as_json, Session.request_options. cbn [call_options].
  destruct (lower method =? "get")%string;
    rewrite !DictFacts.dict_get_update; split; reflexivity.
Qed.

(** C1.  A post answered with status 404, and a post the transport refuses:
    each raises [AttributeError] out of [request], returns nothing and
    publishes nothing. *)
Theorem failed_request_raises_unreported :
  Session.request Sample.session "post" "/messages" (VDict [("content", VStr "hi")])
    (Responded Sample.not_found) idle_world
  = (Raise (mkExn AttributeError "'Session' object has no attribute 'emit'"),
     {| published := [];
        wire := [HttpRequest
                   {| call_method := "post";
                      call_url := "https://api.flowdock.com//messages";
                      call_options :=
                        Session.request_options Sample.session "post"
                          (VDict [("content", VStr "hi")]) |}];
        tasks := [] |})
  /\ Session.request Sample.session "post" "/messages"
       (VDict [("content", VStr "hi")]) (Failed Sample.refused) idle_world
     = (Raise (mkExn AttributeError "'Session' object has no attribute 'emit'"),
        {| published := [];
           wire := [HttpRequest
                      {| call_method := "post";
                         call_url := "https://api.flowdock.com//messages";
                         call_options :=
                           Session.request_options Sample.session "post"
                             (VDict [("content", VStr "hi")]) |}];
           tasks := [] |}).
Proof. split; reflexivity. Qed.

(** C7.  A get answered with status 500 and body [boom]: the [try] raises
    [ValueError] with message [[500] boom], and the call then raises
    [AttributeError], whose message has neither the status nor the body. *)
Theorem status_error_is_replaced :
  outcome (Session.request_try Sample.session "get" "/flows" VNone
             (Responded Sample.server_error)) idle_world
  = Raise (mkExn ValueError "[500] boom")
  /\ outcome (Session.request Sample.session "get" "/flows" VNone
                (Responded Sample.server_error)) idle_world
     = Raise (mkExn AttributeError "'Session' object has no attribute 'emit'").
Proof. split; reflexivity. Qed.

(** C4.  [thread_message] raises [TypeError] while it builds the payload,
    for all arguments, and puts nothing on the wire. *)
Theorem thread_message_raises_before_request
    (self : Session.t) (flow_id thread_id msg tags : value)
    (net : http_outcome) (w : world) :
  Session.thread_message self flow_id thread_id msg tags net w
  = (Raise (mkExn TypeError "dict expected at most 1 argument, got 2"), w).
Proof. reflexivity. Qed.

(** The sibling [message] builds its payload with keywords and posts it. *)
Lemma message_posts_payload
    (self : Session.t) (flow_id msg tags : value) (net : http_outcome) (w : world) :
  sends (Session.message self flow_id msg tags net) w "post" None
    (Some (or_ (VDict [("flow", flow_id); ("event", VStr "message");
                       ("content", msg); ("tags", or_ tags (VList []))])
               (VDict []))).
Proof.
  exact (request_sends self "post" "/messages" _ net w).
Qed.

(** C8, counterexample.  A [delete] answered with status 201 put one call on
    the wire, and that call has a JSON body, the empty object. *)
Lemma delete_sends_empty_json :
  ~ Stated.delete_sends_no_body Sample.session "/flows/acme/main"
      (Responded Sample.created).
Proof.
  intros H. destruct (H _ (or_introl eq_refl)) as [_ J].
  vm_compute in J. discriminate J.
Qed.

(** C8, amended.  [get] sends the body mapping as query parameters and no
    JSON; [post], [put] and [delete] send a JSON body and no query
    parameters, and the JSON body of [delete] is the empty mapping, as it is
    for any call whose body is absent or empty. *)
Theorem body_placement_by_method
    (self : Session.t) (path : string) (data : value) (net : http_outcome)
    (w : world) :
  sends (Session.get self path data net) w "get"
    (Some (or_ data (VDict []))) None
  /\ sends (Session.post self path data net) w "post"
       None (Some (or_ data (VDict [])))
  /\ sends (Session.put self path data net) w "put"
       None (Some (or_ data (VDict [])))
  /\ sends (Session.delete self path net) w "delete"
       None (Some (VDict [])).
Proof.
  repeat split.
  - exact (request_sends self "get" path data net w).
  - exact (request_sends self "post" path data net w).
  - exact (request_sends self "put" path data net w).
  - exact (request_sends self "delete" path VNone net w).
Qed.

End Requests.

(** ** Sequences of [connect] and [end] on one stream *)

Module Sequences.
Import Py Eff Net Obs Protocol.
Local Open Scope list_scope.

Lemma normalised_retry (retry : Z) : (if retry <? 0 then 0 else retry) = Z.max 0 retry.
Proof. destruct (Z.ltb_spec retry 0); lia. Qed.

(** What [connect] publishes when it attempts the handshake. *)
Lemma connect_published (c : EventStream.conn) (retry : Z) (hs : handshake) :
  EventStream._evt (EventStream.self c) = None ->
  published (EventStream.outside (after (EventStream.connect retry hs) c))
  = published (EventStream.outside c)
    ++ map (called_back (source_of (EventStream.self c))) (hs_calls hs).
Proof.
  intros Hnone.
  unfold after, EventStream.connect, bind, gets, EventStream.set_evt,
    modify, EventStream.in_world.
  cbn -[EventSource_connect create_task]. rewrite Hnone.
  cbn -[EventSource_connect create_task].
  rewrite Lifecycle.EventSource_connect_run.
  destruct (hs_raises hs); reflexivity.
Qed.

Lemma step_keeps_fields (c : EventStream.conn) (o : op) :
  EventStream.auth (EventStream.self (step c o)) = EventStream.auth (EventStream.self c)
  /\ EventStream.flows (EventStream.self (step c o))
     = EventStream.flows (EventStream.self c)
  /\ EventStream.params (EventStream.self (step c o))
     = EventStream.params (EventStream.self c)
  /\ EventStream.url (EventStream.self (step c o)) = EventStream.url (EventStream.self c).
Proof.
  destruct o as [retry hs|]; unfold step, after.
  - destruct (EventStream._evt (EventStream.self c)) as [es|] eqn:E.
    + rewrite (Lifecycle.connect_with_source c retry hs es E). repeat split.
    + unfold EventStream.connect, bind, gets, EventStream.set_evt, modify,
        EventStream.in_world.
      cbn -[EventSource_connect create_task]. rewrite E.
      cbn -[EventSource_connect create_task].
      rewrite Lifecycle.EventSource_connect_run.
      destruct (hs_raises hs); repeat split.
  - unfold EventStream.end_, bind, gets. cbn.
    destruct (EventStream._evt (EventStream.self c)); repeat split.
Qed.

(** The machine and the object agree from any state in which the object's
    source, if it has one, is the one its fields describe. *)
Lemma run_follows_machine (es : EventSource) (ops : list op) :
  forall (c : EventStream.conn) (open : bool),
    source_of (EventStream.self c) = es ->
    EventStream._evt (EventStream.self c) = (if open then Some es else None) ->
    wire (EventStream.outside (run ops c))
    = wire (EventStream.outside c) ++ machine_wire es open ops
    /\ tasks (EventStream.outside (run ops c))
       = tasks (EventStream.outside c) ++ machine_tasks es open ops
    /\ has_source (run ops c) = machine_state open ops.
Proof.
  induction ops as [|o ops IH]; intros c open Hes Hevt.
  - cbn. rewrite !app_nil_r. unfold has_source. rewrite Hevt.
    destruct open; repeat split.
  - change (run (o :: ops) c) with (run ops (step c o)).
    destruct o as [retry hs|]; destruct open; cbn [machine_wire machine_tasks machine_state].
    + (* connect while open *)
      unfold step, after. rewrite (Lifecycle.connect_with_source c retry hs es Hevt).
      cbn [snd]. exact (IH c true Hes Hevt).
    + (* connect while closed *)
      destruct (Lifecycle.connect_without_source c retry hs Hevt)
        as (Hs & Hsrc & Hw & Ht & _).
      rewrite Hes in Hs, Hsrc, Hw, Ht. rewrite normalised_retry in Hw.
      destruct (IH (step c (Connect retry hs)) true Hsrc Hs) as (Iw & It & Is).
      unfold step in *. rewrite Iw, It, Is, Hw, Ht, <- !app_assoc.
      destruct (hs_raises hs); repeat split.
    + (* end while open *)
      destruct (Lifecycle.end_clears_source c) as (Hn & Hsrc & Hw & Ht).
      rewrite Hevt in Hw. rewrite Hes in Hsrc.
      destruct (IH (step c End) false Hsrc Hn) as (Iw & It & Is).
      unfold step in *. rewrite Iw, It, Is, Hw, Ht, <- !app_assoc.
      repeat split.
    + (* end while closed *)
      destruct (Lifecycle.end_clears_source c) as (Hn & Hsrc & Hw & Ht).
      rewrite Hevt, app_nil_r in Hw. rewrite Hes in Hsrc.
      destruct (IH (step c End) false Hsrc Hn) as (Iw & It & Is).
      unfold step in *. rewrite Iw, It, Is, Hw, Ht. repeat split.
Qed.

(** X1.  A stream that has no source yet, driven by any sequence of
    [connect] and [end] calls, behaves as a two-state machine: only a
    [connect] while closed attempts a handshake, only an [end] while open
    closes, always for the same source (same URL and parameters); a decode
    loop is scheduled for each handshake that succeeds, and the stream holds
    a source exactly when the last effective call was a [connect]. *)
Theorem stream_follows_two_state_machine (c : EventStream.conn) (ops : list op) :
  EventStream._evt (EventStream.self c) = None ->
  wire (EventStream.outside (run ops c))
  = wire (EventStream.outside c)
    ++ machine_wire (source_of (EventStream.self c)) false ops
  /\ tasks (EventStream.outside (run ops c))
     = tasks (EventStream.outside c)
       ++ machine_tasks (source_of (EventStream.self c)) false ops
  /\ has_source (run ops c) = machine_state false ops.
Proof.
  intros Hnone.
  exact (run_follows_machine (source_of (EventStream.self c)) ops c false
           eq_refl Hnone).
Qed.

(** X1, an instance: connect, connect, end, end, a failed connect, end. *)
Lemma stream_follows_two_state_machine_witness :
  EventStream._evt (EventStream.self (Sample.fresh Sample.plain_stream)) = None
  /\ wire (EventStream.outside
             (run [Connect 3 opened; Connect 3 opened; End; End;
                   Connect (-1) Sample.gave_up; End]
                (Sample.fresh Sample.plain_stream)))
     = [SseConnect (source_of Sample.plain_stream) 3;
        SseClose (source_of Sample.plain_stream);
        SseConnect (source_of Sample.plain_stream) 0;
        SseClose (source_of Sample.plain_stream)].
Proof.
  split; [reflexivity|].
  exact (proj1 (stream_follows_two_state_machine
                  (Sample.fresh Sample.plain_stream)
                  [Connect 3 opened; Connect 3 opened; End; End;
                   Connect (-1) Sample.gave_up; End] eq_refl)).
Defined.

(** X2.  [end] never raises, publishes nothing and schedules nothing; a
    second [end] returns leaving everything as the first left it, and so does
    [end] on a newly constructed stream. *)
Theorem end_is_silent_and_idempotent
    (c : EventStream.conn) (environ : string -> option string) (auth : string)
    (flows : list string) (url : option string) (params : option dict)
    (w : world) :
  outcome EventStream.end_ c = Return tt
  /\ published (EventStream.outside (after EventStream.end_ c))
     = published (EventStream.outside c)
  /\ tasks (EventStream.outside (after EventStream.end_ c))
     = tasks (EventStream.outside c)
  /\ EventStream.end_ (after EventStream.end_ c)
     = (Return tt, after EventStream.end_ c)
  /\ EventStream.end_
       {| EventStream.self := EventStream.__init__ environ auth flows url params;
          EventStream.outside := w |}
     = (Return tt,
        {| EventStream.self := EventStream.__init__ environ auth flows url params;
           EventStream.outside := w |}).
Proof.
  unfold outcome, after, EventStream.end_, bind, gets. cbn.
  destruct (EventStream._evt (EventStream.self c)) as [es|] eqn:E; cbn.
  - repeat split.
  - rewrite E. repeat split.
Qed.

(** X3.  When the handshake of a first [connect] fails, [connect] raises the
    SSE client's exception and schedules no decode loop, yet the stream keeps
    the source: every later [connect] returns at once without a handshake,
    until [end] is called. *)
Theorem failed_handshake_blocks_reconnect
    (c : EventStream.conn) (retry retry' : Z) (hs hs' : handshake) (e : exn) :
  EventStream._evt (EventStream.self c) = None ->
  hs_raises hs = Some e ->
  outcome (EventStream.connect retry hs) c = Raise e
  /\ tasks (EventStream.outside (after (EventStream.connect retry hs) c))
     = tasks (EventStream.outside c)
  /\ has_source (after (EventStream.connect retry hs) c) = true
  /\ EventStream.connect retry' hs' (after (EventStream.connect retry hs) c)
     = (Return tt, after (EventStream.connect retry hs) c).
Proof.
  intros Hnone Hfail.
  destruct (Lifecycle.connect_without_source c retry hs Hnone)
    as (Hs & _ & _ & Ht & Ho).
  rewrite Hfail in Ht, Ho. rewrite app_nil_r in Ht.
  unfold has_source. rewrite Hs. repeat split; try assumption.
  exact (Lifecycle.connect_with_source _ retry' hs' _ Hs).
Qed.

(** X3, an instance: the handshake gives up, then a connect that would
    succeed is not attempted. *)
Lemma failed_handshake_blocks_reconnect_witness :
  EventStream._evt (EventStream.self (Sample.fresh Sample.plain_stream)) = None
  /\ hs_raises Sample.gave_up = Some Sample.refused
  /\ EventStream.connect 3 opened
       (after (EventStream.connect 3 Sample.gave_up)
          (Sample.fresh Sample.plain_stream))
     = (Return tt,
        after (EventStream.connect 3 Sample.gave_up)
          (Sample.fresh Sample.plain_stream)).
Proof.
  split; [reflexivity|]. split; [reflexivity|].
  exact (proj2 (proj2 (proj2
           (failed_handshake_blocks_reconnect (Sample.fresh Sample.plain_stream)
              3 3 Sample.gave_up opened Sample.refused eq_refl eq_refl)))).
Defined.

(** X4.  A negative retry count is taken as zero: [connect] with a negative
    count does exactly what [connect] with count 0 does. *)
Theorem negative_retry_is_zero
    (c : EventStream.conn) (retry : Z) (hs : handshake) :
  retry < 0 ->
  EventStream.connect retry hs c = EventStream.connect 0 hs c.
Proof.
  intros Hneg. unfold EventStream.connect.
  replace (retry <? 0) with true by (symmetry; apply Z.ltb_lt; exact Hneg).
  reflexivity.
Qed.

(** X4, an instance: a retry count of -5. *)
Lemma negative_retry_is_zero_witness :
  -5 < 0
  /\ EventStream.connect (-5) opened (Sample.fresh Sample.plain_stream)
     = EventStream.connect 0 opened (Sample.fresh Sample.plain_stream).
Proof.
  split; [reflexivity|].
  apply (negative_retry_is_zero (Sample.fresh Sample.plain_stream) (-5) opened).
  reflexivity.
Defined.

(** X5.  [connect] itself publishes nothing: what appears in the log while
    it runs are the notifications of the callbacks it gave the SSE client,
    one per callback call and in the order of the calls, each either
    [connected] carrying the stream or [error] carrying nothing.  A
    [connect] on a stream that already has a source publishes nothing at
    all. *)
Theorem connect_publishes_only_callbacks
    (c : EventStream.conn) (retry : Z) (hs : handshake) :
  published (EventStream.outside (after (EventStream.connect retry hs) c))
  = published (EventStream.outside c)
    ++ (if has_source c then []
        else map EventStream.bound (hs_calls hs))
  /\ Forall (fun n => n = connected \/ n = error_bare)
       (map EventStream.bound (hs_calls hs)).
Proof.
  split.
  - unfold has_source.
    destruct (EventStream._evt (EventStream.self c)) as [es|] eqn:E.
    + unfold after. rewrite (Lifecycle.connect_with_source c retry hs es E).
      cbn. now rewrite app_nil_r.
    + rewrite (connect_published c retry hs E). reflexivity.
  - apply Forall_forall. intros n Hin. apply in_map_iff in Hin as (cb & <- & _).
    destruct cb; [left|right]; reflexivity.
Qed.

(** X6.  No sequence of [connect] and [end] calls changes the token, the
    channel list, the options or the URL of a stream. *)
Theorem calls_keep_scope (ops : list op) (c : EventStream.conn) :
  EventStream.auth (EventStream.self (run ops c)) = EventStream.auth (EventStream.self c)
  /\ EventStream.flows (EventStream.self (run ops c))
     = EventStream.flows (EventStream.self c)
  /\ EventStream.params (EventStream.self (run ops c))
     = EventStream.params (EventStream.self c)
  /\ EventStream.url (EventStream.self (run ops c)) = EventStream.url (EventStream.self c).
Proof.
  revert c. induction ops as [|o ops IH]; intros c; [repeat split|].
  change (run (o :: ops) c) with (run ops (step c o)).
  destruct (IH (step c o)) as (Ia & If & Ip & Iu).
  destruct (step_keeps_fields c o) as (Sa & Sf & Sp & Su).
  rewrite Ia, If, Ip, Iu. repeat split; assumption.
Qed.

End Sequences.

(** ** How the decode loop ends *)

Module LoopEndings.
Import Py Eff Net Obs Protocol.
Local Open Scope list_scope.

Section WithDecoder.
Variable json_loads : string -> value + string.

(** X7.  When the stream raises after events that all decoded (and
    callbacks the SSE client called), the loop
    publishes one notification carrying the exception and returns:
    [disconnected] if the exception is a [ClientConnectionError],
    [clientError] otherwise. *)
Theorem stream_exception_ends_loop
    (pre : list anext) (e : exn) (post : list anext) (w : world) :
  forallb (decodes json_loads) pre = true ->
  EventStream._process_data json_loads (pre ++ Throw e :: post) w
  = (Return EventStream.Returned,
     extend w (flat_map (relayed json_loads) pre ++ [stream_failure e])).
Proof.
  intros Hpre.
  rewrite (DecodeLoop.process_data_prefix json_loads pre _ w Hpre).
  unfold EventStream._process_data, try_except, stream_failure. cbn.
  destruct (is_ClientConnectionError e); cbn; f_equal;
    unfold extend; cbn; f_equal; now rewrite <- app_assoc.
Qed.

(** X8.  When the iteration stops without an exception, after events that
    all decoded and callbacks the SSE client called, the loop returns and
    adds nothing of its own: the log holds the [rawdata]/[message] pairs
    and the callbacks' notifications, in order, and no [disconnected]; and
    while the stream has neither stopped nor raised, the loop is waiting for
    the next event with the same log. *)
Theorem quiet_ending_and_waiting
    (pre : list anext) (post : list anext) (w : world) :
  forallb (decodes json_loads) pre = true ->
  EventStream._process_data json_loads (pre ++ StopAsyncIteration :: post) w
  = (Return EventStream.Returned, extend w (flat_map (relayed json_loads) pre))
  /\ EventStream._process_data json_loads pre w
     = (Return EventStream.Awaiting, extend w (flat_map (relayed json_loads) pre))
  /\ count "disconnected" (flat_map (relayed json_loads) pre) = 0%nat.
Proof.
  intros Hpre. repeat split.
  - now rewrite (DecodeLoop.process_data_prefix json_loads pre _ w Hpre).
  - rewrite <- (app_nil_r pre) at 1.
    now rewrite (DecodeLoop.process_data_prefix json_loads pre _ w Hpre).
  - clear Hpre. induction pre as [|a pre IH]; [reflexivity|].
    cbn [flat_map]. rewrite DecodeLoop.count_app, IH.
    destruct a as [evt| |e0|cb]; try reflexivity.
    + cbn [relayed]. destruct (json_loads (evt_data evt)); reflexivity.
    + destruct cb; reflexivity.
Qed.

(** X9.  Whatever the stream yields, the decode loop never raises and only
    adds notifications (the wire and the scheduled loops are untouched).  In
    what it adds, every [message] has its [rawdata], at most one [rawdata]
    is left without a [message], and at most one [clientError] or
    [disconnected] appears; while the loop is still waiting there is none and
    every [rawdata] has its [message]. *)
Theorem loop_never_raises_and_pairs_notifications (event_source : list anext) :
  forall w,
  exists st ns,
    EventStream._process_data json_loads event_source w = (Return st, extend w ns)
    /\ (count "message" ns <= count "rawdata" ns <= S (count "message" ns))%nat
    /\ (count "clientError" ns + count "disconnected" ns <= 1)%nat
    /\ match st with
       | EventStream.Awaiting =>
           count "rawdata" ns = count "message" ns
           /\ (count "clientError" ns + count "disconnected" ns = 0)%nat
       | EventStream.Returned => True
       end.
Proof.
  induction event_source as [|a source IH]; intros w.
  - exists EventStream.Awaiting, []. cbn. rewrite DecodeLoop.extend_nil.
    repeat split; lia.
  - destruct a as [evt| |e|cb].
    + destruct (json_loads (evt_data evt)) as [v|why] eqn:Hv.
      * destruct (IH (extend w [rawdata evt; message v]))
          as (st & ns & E & Hpair & Hend & Hst).
        exists st, ([rawdata evt; message v] ++ ns).
        split.
        { unfold EventStream._process_data, try_except in *.
          rewrite (DecodeLoop.async_for_decoded json_loads evt v source w Hv).
          rewrite <- DecodeLoop.extend_extend. exact E. }
        rewrite !DecodeLoop.count_app.
        change (count "message" [rawdata evt; message v]) with 1%nat.
        change (count "rawdata" [rawdata evt; message v]) with 1%nat.
        change (count "clientError" [rawdata evt; message v]) with 0%nat.
        change (count "disconnected" [rawdata evt; message v]) with 0%nat.
        repeat split; try lia.
        destruct st; [|exact I]. lia.
      * exists EventStream.Returned,
          [rawdata evt; clientError (mkExn JSONDecodeError why)].
        split.
        { unfold EventStream._process_data, try_except.
          rewrite (DecodeLoop.async_for_malformed json_loads evt why source w Hv).
          cbn. unfold extend; cbn. now rewrite <- app_assoc. }
        cbn. repeat split; lia.
    + exists EventStream.Returned, []. cbn. rewrite DecodeLoop.extend_nil.
      repeat split; lia.
    + exists EventStream.Returned, [stream_failure e]. split.
      { unfold EventStream._process_data, try_except, stream_failure. cbn.
        destruct (is_ClientConnectionError e); reflexivity. }
      unfold stream_failure.
      destruct (is_ClientConnectionError e); cbn; repeat split; lia.
    + destruct (IH (extend w [EventStream.bound cb]))
        as (st & ns & E & Hpair & Hend & Hst).
      exists st, ([EventStream.bound cb] ++ ns).
      split.
      { unfold EventStream._process_data, try_except in *.
        rewrite (DecodeLoop.async_for_called json_loads cb source w).
        rewrite <- DecodeLoop.extend_extend. exact E. }
      rewrite !DecodeLoop.count_app.
      replace (count "message" [EventStream.bound cb]) with 0%nat
        by (destruct cb; reflexivity).
      replace (count "rawdata" [EventStream.bound cb]) with 0%nat
        by (destruct cb; reflexivity).
      replace (count "clientError" [EventStream.bound cb]) with 0%nat
        by (destruct cb; reflexivity).
      replace (count "disconnected" [EventStream.bound cb]) with 0%nat
        by (destruct cb; reflexivity).
      repeat split; try lia.
      destruct st; [|exact I]. lia.
Qed.

End WithDecoder.

(** X7, an instance: [true], then the server drops the connection. *)
Lemma stream_exception_ends_loop_witness :
  forallb (decodes Sample.literal_loads) [Yield (Sample.event "true")] = true
  /\ EventStream._process_data Sample.literal_loads
       ([Yield (Sample.event "true")]
        ++ Throw (mkExn ServerDisconnectedError "Server disconnected")
           :: [Yield (Sample.event "null")]) idle_world
     = (Return EventStream.Returned,
        extend idle_world
          [rawdata (Sample.event "true"); message (VBool true);
           disconnected (mkExn ServerDisconnectedError "Server disconnected")]).
Proof.
  split; [reflexivity|].
  exact (stream_exception_ends_loop Sample.literal_loads
           [Yield (Sample.event "true")]
           (mkExn ServerDisconnectedError "Server disconnected")
           [Yield (Sample.event "null")] idle_world eq_refl).
Defined.

(** X8, an instance: [true], the connection is lost and found again (the
    SSE client calls [on_error], then [on_open]), [false], then the stream
    ends. *)
Lemma quiet_ending_and_waiting_witness :
  forallb (decodes Sample.literal_loads)
    [Yield (Sample.event "true"); Called OnError; Called OnOpen;
     Yield (Sample.event "false")] = true
  /\ EventStream._process_data Sample.literal_loads
       ([Yield (Sample.event "true"); Called OnError; Called OnOpen;
         Yield (Sample.event "false")]
        ++ StopAsyncIteration :: []) idle_world
     = (Return EventStream.Returned,
        extend idle_world
          [rawdata (Sample.event "true"); message (VBool true);
           error_bare; connected;
           rawdata (Sample.event "false"); message (VBool false)]).
Proof.
  split; [reflexivity|].
  exact (proj1 (quiet_ending_and_waiting Sample.literal_loads
                  [Yield (Sample.event "true"); Called OnError; Called OnOpen;
                   Yield (Sample.event "false")]
                  [] idle_world eq_refl)).
Defined.

End LoopEndings.

(** ** What the request methods put on the wire *)

Module Calls.
Import Py Eff Net Obs Protocol.

(** One call of [request]: one HTTP call, whatever the transport answers,
    and nothing published. *)
Lemma request_calls (self : Session.t) (method path : string) (data : value)
    (net : http_outcome) (w : world) :
  calls (Session.request self method path data net) w method
    (Session.url self ++ "/" ++ path)
    [("headers", headers_of self);
     (if (lower method =? "get")%string then "params" else "json",
      or_ data (VDict []))].
Proof.
  unfold calls. rewrite Requests.request_world, Requests.request_try_wire.
  unfold Session.request_options.
  destruct (lower method =? "get")%string; reflexivity.
Qed.

(** X10.  A call answered with a status below 300 and a body that parses
    returns the parsed body paired with the response; one HTTP call was made
    and nothing is published. *)
Theorem successful_request_returns_body
    (self : Session.t) (method path : string) (data : value)
    (resp : Response) (body : value) (w : world) :
  Net.status resp < 300 ->
  json resp = Return body ->
  outcome (Session.request self method path data (Responded resp)) w
  = Return (Session.Parsed body resp)
  /\ calls (Session.request self method path data (Responded resp)) w method
       (Session.url self ++ "/" ++ path)
       (Session.request_options self method data).
Proof.
  intros Hok Hbody. split.
  - rewrite Requests.request_outcome.
    unfold outcome, Session.request_try, session_request, send_on_wire, modify,
      bind, of_result, ret.
    cbn. replace (300 <=? Net.status resp) with false
      by (symmetry; apply Z.leb_gt; exact Hok).
    now rewrite Hbody.
  - unfold calls. now rewrite Requests.request_world, Requests.request_try_wire.
Qed.

(** X10, an instance: a post answered with 201 and a JSON body. *)
Lemma successful_request_returns_body_witness :
  Net.status Sample.created < 300
  /\ json Sample.created = Return (VDict [("id", VStr "abc")])
  /\ outcome (Session.request Sample.session "post" "/messages"
                (VDict [("content", VStr "hi")]) (Responded Sample.created))
       idle_world
     = Return (Session.Parsed (VDict [("id", VStr "abc")]) Sample.created).
Proof.
  split; [reflexivity|]. split; [reflexivity|].
  exact (proj1 (successful_request_returns_body Sample.session "post" "/messages"
                  (VDict [("content", VStr "hi")]) Sample.created
                  (VDict [("id", VStr "abc")]) idle_world eq_refl eq_refl)).
Defined.

(** X11.  Every call of [request], whatever the method, the body and the
    transport's answer, makes exactly one HTTP call, to the base URL, a
    slash and the path; its keyword arguments are the three fixed headers and
    one body entry, so nothing in the caller's body can change a header; and
    nothing is published. *)
Theorem request_is_one_call_with_fixed_headers
    (self : Session.t) (method path : string) (data : value)
    (net : http_outcome) (w : world) :
  exists c,
    wire (after (Session.request self method path data net) w)
    = (wire w ++ [HttpRequest c])%list
    /\ published (after (Session.request self method path data net) w)
       = published w
    /\ call_url c = Session.url self ++ "/" ++ path
    /\ dict_get "headers" (call_options c) = Some (headers_of self)
    /\ map fst (call_options c)
       = ["headers"; if (lower method =? "get")%string then "params" else "json"].
Proof.
  eexists. rewrite (request_calls self method path data net w).
  cbn [wire published]. split; [reflexivity|].
  destruct (lower method =? "get")%string; repeat split.
Qed.

(** X12.  The posting wrappers each make one POST with a JSON body of fixed
    keys: [message] and [status] to [/messages], [comment] to [/comments],
    [private_message] to [/private/<user>/messages], [invite] to
    [/flows/<org>/<flow>/invitations].  Tags that are absent or empty are
    sent as the empty list; [status] and [invite] send no tags. *)
Theorem posting_wrappers_payloads
    (self : Session.t) (flow_id parent_id msg tags email : value)
    (user_id org_id flow : ident) (net : http_outcome) (w : world) :
  calls (Session.message self flow_id msg tags net) w "post"
    (Session.url self ++ "//messages")
    [("headers", headers_of self);
     ("json", VDict [("flow", flow_id); ("event", VStr "message");
                     ("content", msg); ("tags", or_ tags (VList []))])]
  /\ calls (Session.status self flow_id msg net) w "post"
       (Session.url self ++ "//messages")
       [("headers", headers_of self);
        ("json", VDict [("event", VStr "status"); ("content", msg);
                        ("flow", flow_id)])]
  /\ calls (Session.comment self flow_id parent_id msg tags net) w "post"
       (Session.url self ++ "//comments")
       [("headers", headers_of self);
        ("json", VDict [("event", VStr "comment"); ("flow", flow_id);
                        ("message", parent_id); ("content", msg);
                        ("tags", or_ tags (VList []))])]
  /\ calls (Session.private_message self user_id msg tags net) w "post"
       (Session.url self ++ "//private/" ++ str_ user_id ++ "/messages")
       [("headers", headers_of self);
        ("json", VDict [("event", VStr "message"); ("content", msg);
                        ("tags", or_ tags (VList []))])]
  /\ calls (Session.invite self flow org_id email msg net) w "post"
       (Session.url self ++ "//flows/" ++ str_ org_id ++ "/" ++ str_ flow
        ++ "/invitations")
       [("headers", headers_of self);
        ("json", VDict [("email", email); ("message", msg)])].
Proof.
  repeat split.
  - exact (request_calls self "post" "/messages" _ net w).
  - exact (request_calls self "post" "/messages" _ net w).
  - exact (request_calls self "post" "/comments" _ net w).
  - exact (request_calls self "post" _ _ net w).
  - exact (request_calls self "post" _ _ net w).
Qed.

(** X13.  [edit_message] makes one PUT to
    [/flows/<org>/<flow>/message/<id>] whose JSON body is the caller's data,
    or the empty mapping when the data is absent or empty; [flows] makes one
    GET to [/flows] with the query parameter [users=1]. *)
Theorem edit_and_list_calls
    (self : Session.t) (flow org_id msg_id : ident) (data : value)
    (net : http_outcome) (w : world) :
  calls (Session.edit_message self flow org_id msg_id data net) w "put"
    (Session.url self ++ "//flows/" ++ str_ org_id ++ "/" ++ str_ flow
     ++ "/message/" ++ str_ msg_id)
    [("headers", headers_of self); ("json", or_ data (VDict []))]
  /\ calls (Session.flows self net) w "get"
       (Session.url self ++ "//flows")
       [("headers", headers_of self); ("params", VDict [("users", VInt 1)])].
Proof.
  split.
  - exact (request_calls self "put" _ data net w).
  - exact (request_calls self "get" "/flows" _ net w).
Qed.

(** X14.  What [stream] makes does not depend on how its arguments are
    spelled: one identifier is the same as a one-element list, no options the
    same as empty options.  A list is taken as it is, an empty list gives
    the empty filter.  The stream's URL comes from the environment or the
    default, never from the session's URL, and its only header is the
    session's token. *)
Theorem stream_construction
    (environ : string -> option string) (session : Session.t) (flow : string)
    (channels : list string) (arg : Session.flows_arg) (options : dict) :
  Session.stream environ session (Session.OneFlow flow) (Some options)
  = Session.stream environ session (Session.FlowList [flow]) (Some options)
  /\ Session.stream environ session arg None
     = Session.stream environ session arg (Some [])
  /\ EventStream.flows
       (Session.stream environ session (Session.FlowList channels) (Some options))
     = channels
  /\ EventStream.params (Session.stream environ session arg (Some options))
     = options
  /\ query (Session.stream environ session (Session.FlowList []) None)
     = [("filter", VStr "")]
  /\ EventStream.url (Session.stream environ session arg (Some options))
     = EventStream.environ_get environ "FLOWDOCK_STREAM_URL"
         EventStream.DEFAULT_STREAM_URL
  /\ dict_get "headers"
       (EventStream._options (Session.stream environ session arg (Some options)))
     = Some (VDict [("Authorization", VStr (Session.auth session))]).
Proof.
  repeat split. destruct options; reflexivity.
Qed.



End Calls.

(** ** The decode loop of an open stream *)

Module OpenStream.
Import Py Eff Net Obs Protocol.
Local Open Scope list_scope.

(** The callbacks the loop sees called are the ones [connect] bound. *)
Lemma bound_is_called_back (self : EventStream.t) (cb : callback) :
  EventStream.bound cb = called_back (source_of self) cb.
Proof. destruct cb; reflexivity. Qed.

Section WithDecoder.
Variable json_loads : string -> value + string.

(** C6.  When the loop reaches an event whose data is valid JSON, the log
    holds, after what was published before, [rawdata] with the raw event
    and, next, [message] with the value decoded from that event's data; the
    loop has not returned at that point, and what it does afterwards is what
    it does on the events that follow. *)
Theorem valid_event_published_in_order
    (pre : list anext) (evt : MessageEvent) (v : value) (rest : list anext)
    (w : world) :
  forallb (decodes json_loads) pre = true ->
  json_loads (evt_data evt) = inl v ->
  exists st more,
    EventStream._process_data json_loads (pre ++ Yield evt :: rest) w
    = (Return st, extend w (relay_log json_loads pre evt v ++ more))
    /\ EventStream._process_data json_loads rest
         (extend w (relay_log json_loads pre evt v))
       = (Return st, extend (extend w (relay_log json_loads pre evt v)) more)
    /\ EventStream._process_data json_loads (pre ++ [Yield evt]) w
       = (Return EventStream.Awaiting,
          extend w (relay_log json_loads pre evt v)).
Proof.
  intros Hpre Hv.
  destruct (DecodeLoop.process_data_total json_loads rest
              (extend w (relay_log json_loads pre evt v))) as (st & more & E).
  exists st, more. repeat split.
  - rewrite (DecodeLoop.valid_event_rawdata_then_message json_loads
               pre evt v rest w Hpre Hv).
    fold (relay_log json_loads pre evt v).
    rewrite E, DecodeLoop.extend_extend. reflexivity.
  - exact E.
  - rewrite (DecodeLoop.valid_event_rawdata_then_message json_loads
               pre evt v [] w Hpre Hv).
    reflexivity.
Qed.

(** C5, amended.  On a stream that has a source, when the decode loop
    reaches an event whose data is not valid JSON it publishes that event's
    [rawdata], then exactly one [clientError], and returns, leaving the
    stream as it was: that loop publishes nothing more, whatever follows on
    the stream, and [connect] on the stream, which still has its source,
    returns at once without starting another loop. *)
Theorem malformed_event_ends_its_loop
    (c : EventStream.conn) (es : EventSource)
    (pre : list anext) (bad : MessageEvent) (why : string) (post : list anext)
    (retry : Z) (hs : handshake) :
  EventStream._evt (EventStream.self c) = Some es ->
  forallb (decodes json_loads) pre = true ->
  json_loads (evt_data bad) = inr why ->
  EventStream.in_world
    (EventStream._process_data json_loads (pre ++ Yield bad :: post)) c
  = (Return EventStream.Returned,
     published_more c (fatal_log json_loads pre bad why))
  /\ count "clientError" (fatal_log json_loads pre bad why) = 1%nat
  /\ EventStream.connect retry hs
       (published_more c (fatal_log json_loads pre bad why))
     = (Return tt, published_more c (fatal_log json_loads pre bad why)).
Proof.
  intros Hopen Hpre Hbad.
  destruct (DecodeLoop.malformed_event_ends_loop json_loads pre bad why post
              (EventStream.outside c) Hpre Hbad) as (Hrun & Hone).
  repeat split.
  - unfold EventStream.in_world. rewrite Hrun. reflexivity.
  - exact Hone.
  - exact (Lifecycle.connect_with_source
             (published_more c (fatal_log json_loads pre bad why))
             retry hs es Hopen).
Qed.

End WithDecoder.

(** C5, counterexample.  A stream is connected and its loop meets the
    malformed [<html>]; the caller ends the stream and connects it again;
    the new loop reads [true] and publishes [rawdata] and [message]. *)
Lemma ended_stream_publishes_again :
  ~ Stated.malformed_event_is_final Sample.literal_loads
      (Sample.fresh Sample.plain_stream)
      [Yield (Sample.event "<html>")] [Yield (Sample.event "true")].
Proof.
  unfold Stated.malformed_event_is_final. vm_compute.
  intros [H _]. discriminate H.
Qed.

(** C6, an instance: [true], then [null], then the stream stops. *)
Lemma valid_event_published_in_order_witness :
  forallb (decodes Sample.literal_loads) [Yield (Sample.event "true")] = true
  /\ Sample.literal_loads (evt_data (Sample.event "null")) = inl VNone
  /\ exists st more,
       EventStream._process_data Sample.literal_loads
         ([Yield (Sample.event "true")]
          ++ Yield (Sample.event "null") :: [StopAsyncIteration]) idle_world
       = (Return st,
          extend idle_world
            (relay_log Sample.literal_loads [Yield (Sample.event "true")]
               (Sample.event "null") VNone ++ more))
       /\ EventStream._process_data Sample.literal_loads [StopAsyncIteration]
            (extend idle_world
               (relay_log Sample.literal_loads [Yield (Sample.event "true")]
                  (Sample.event "null") VNone))
          = (Return st,
             extend
               (extend idle_world
                  (relay_log Sample.literal_loads [Yield (Sample.event "true")]
                     (Sample.event "null") VNone)) more)
       /\ EventStream._process_data Sample.literal_loads
            ([Yield (Sample.event "true")] ++ [Yield (Sample.event "null")])
            idle_world
          = (Return EventStream.Awaiting,
             extend idle_world
               (relay_log Sample.literal_loads [Yield (Sample.event "true")]
                  (Sample.event "null") VNone)).
Proof.
  split; [reflexivity|]. split; [reflexivity|].
  exact (valid_event_published_in_order Sample.literal_loads
           [Yield (Sample.event "true")] (Sample.event "null") VNone
           [StopAsyncIteration] idle_world eq_refl eq_refl).
Defined.

(** C5, an instance: on a connected stream the loop reads [true], then the
    malformed [<html>]; [null] follows and is not read. *)
Lemma malformed_event_ends_its_loop_witness :
  EventStream._evt
    (EventStream.self
       (after (EventStream.connect 3 opened) (Sample.fresh Sample.plain_stream)))
  = Some (source_of Sample.plain_stream)
  /\ forallb (decodes Sample.literal_loads) [Yield (Sample.event "true")] = true
  /\ Sample.literal_loads (evt_data (Sample.event "<html>"))
     = inr "Expecting value: line 1 column 1 (char 0)"
  /\ EventStream.in_world
       (EventStream._process_data Sample.literal_loads
          ([Yield (Sample.event "true")]
           ++ Yield (Sample.event "<html>") :: [Yield (Sample.event "null")]))
       (after (EventStream.connect 3 opened) (Sample.fresh Sample.plain_stream))
     = (Return EventStream.Returned,
        published_more
          (after (EventStream.connect 3 opened)
             (Sample.fresh Sample.plain_stream))
          [rawdata (Sample.event "true"); message (VBool true);
           rawdata (Sample.event "<html>");
           clientError (mkExn JSONDecodeError
                          "Expecting value: line 1 column 1 (char 0)")]).
Proof.
  split; [reflexivity|]. split; [reflexivity|]. split; [reflexivity|].
  exact (proj1 (malformed_event_ends_its_loop Sample.literal_loads
                  (after (EventStream.connect 3 opened)
                     (Sample.fresh Sample.plain_stream))
                  (source_of Sample.plain_stream)
                  [Yield (Sample.event "true")] (Sample.event "<html>")
                  "Expecting value: line 1 column 1 (char 0)"
                  [Yield (Sample.event "null")] 3 opened
                  eq_refl eq_refl eq_refl)).
Defined.

End OpenStream.
